(** * t-rec: the X11 window fixture [resources/list.c]

    The file is a single C function, [main], that talks to an X server
    through libxcb: it connects, looks up the first screen, creates a
    window, names it, maps it, and then spins in [while (1) {}].

    [main] is embedded as a small-step machine.  One step executes one
    C statement; the state holds the program point, the five local
    variables and the chronological log of everything observable the
    statement did (library calls, reads through the [screen] pointer).
    libxcb and the X server are not part of the repository: the values
    the library hands back are taken from an arbitrary [xcb_library].
    Two things can end a run in [Crashed], both because [main] checks
    nothing: the roots iterator, an accessor that reads the setup it is
    handed, is handed whatever [xcb_get_setup] returned; and [main]
    itself reads through [screen] without a guard.  Every other call is
    taken to return. *)

From Stdlib Require Import ZArith String Ascii List Lia.
From stdpp Require Import gmap.
Import ListNotations.
Local Open Scope Z_scope.
Local Open Scope string_scope.

(** ** C data *)

Definition pointer := Z.
Definition NULL : pointer := 0.

(** Implicit conversions of an [int] or [size_t] argument to the
    parameter types of the xcb prototypes. *)
Definition to_uint8 (z : Z) : Z := z mod 2 ^ 8.
Definition to_uint16 (z : Z) : Z := z mod 2 ^ 16.
Definition to_uint32 (z : Z) : Z := z mod 2 ^ 32.
Definition to_int16 (z : Z) : Z := (z + 2 ^ 15) mod 2 ^ 16 - 2 ^ 15.

(** [strlen] of the C library on a string literal: the bytes before the
    first NUL; the literal's own terminator is the end of the Rocq
    string. *)
Fixpoint strlen (s : string) : Z :=
  match s with
  | EmptyString => 0
  | String c rest => if Ascii.eqb c zero then 0 else 1 + strlen rest
  end.

(** Enumerations of <xcb/xproto.h> that [main] names.  The header is
    not in the repository; the constructors are its enumerators. *)
Inductive xcb_window_class_t :=
| XCB_WINDOW_CLASS_COPY_FROM_PARENT
| XCB_WINDOW_CLASS_INPUT_OUTPUT
| XCB_WINDOW_CLASS_INPUT_ONLY.

Inductive xcb_prop_mode_t :=
| XCB_PROP_MODE_REPLACE
| XCB_PROP_MODE_PREPEND
| XCB_PROP_MODE_APPEND.

Inductive xcb_atom_enum_t :=
| XCB_ATOM_NONE
| XCB_ATOM_STRING
| XCB_ATOM_WM_ICON_NAME
| XCB_ATOM_WM_NAME.

(** [xcb_screen_t], restricted to the two members [main] reads. *)
Record xcb_screen_t := { root : Z; root_visual : Z }.

Inductive screen_member := member_root | member_root_visual.

Record xcb_screen_iterator_t := { data : pointer; rem : Z; index : Z }.

(** ** The library as the program sees it

    Results of the four calls whose value [main] keeps, and the part of
    client memory in which the library stores the screens of the
    connection setup.  Every other call returns a cookie or a status
    that [main] drops.

    [xcb_setup_roots_iterator] computes its result from the fields of
    the setup it is given, so it reads through its argument: [None] is
    the call that faults doing so (a null setup, which [xcb_get_setup]
    of older libxcb releases returns for a connection that failed). *)
Record xcb_library := {
  lib_connect : pointer -> pointer -> pointer;
  lib_get_setup : pointer -> pointer;
  lib_setup_roots_iterator : pointer -> option xcb_screen_iterator_t;
  lib_generate_id : pointer -> Z;
  lib_screens : pointer -> option xcb_screen_t
}.

(** The object [p] points to, for [p : xcb_screen_t *].  [None]: no
    [xcb_screen_t] lies there (a null or wild pointer), and reading any
    member through [p] is undefined in the C abstract machine. *)
Definition deref (lib : xcb_library) (p : pointer) : option xcb_screen_t :=
  if Z.eqb p NULL then None else lib_screens lib p.

(** ** Observable actions *)

(** Calls into libxcb, with their actual arguments.  The first eight
    constructors are the functions [main] calls; the other seven belong
    to the same API and are never called, they are listed so that their
    absence can be stated. *)
Inductive request :=
| xcb_connect (displayname screenp : pointer)
| xcb_get_setup (c : pointer)
| xcb_setup_roots_iterator (R : pointer)
| xcb_generate_id (c : pointer)
| xcb_create_window (c : pointer) (depth : Z) (wid parent : Z)
    (x y width height border_width : Z) (_class : xcb_window_class_t)
    (visual : Z) (value_mask : Z) (value_list : pointer)
| xcb_change_property (c : pointer) (mode : xcb_prop_mode_t) (window : Z)
    (property type_ : xcb_atom_enum_t) (format : Z) (data_len : Z)
    (data_ : string)
| xcb_map_window (c : pointer) (window : Z)
| xcb_flush (c : pointer)
| xcb_disconnect (c : pointer)
| xcb_connection_has_error (c : pointer)
| xcb_destroy_window (c : pointer) (window : Z)
| xcb_unmap_window (c : pointer) (window : Z)
| xcb_configure_window (c : pointer) (window : Z) (value_mask : Z)
    (value_list : list Z)
| xcb_wait_for_event (c : pointer)
| xcb_poll_for_event (c : pointer).

Inductive event :=
| Call (r : request)
| Strlen (s : string)
| Read (p : pointer) (m : screen_member).

(** ** Program state *)

(** Program points, named after the source line of the statement that
    is about to run. *)
Inductive label :=
| line13 | line17 | line22 | line23 | line37 | line38
| line50 | line51 | line63 | line64 | line68 | line70.

Inductive control :=
| At (l : label)
| Exited (status : Z)
| Crashed.

(** The locals of [main].  A local holds a placeholder until its
    initialiser has run; no statement reads one before that. *)
Record locals := {
  connection : pointer;
  screen : pointer;
  window : Z;
  title : string;
  iconTitle : string
}.

Record state := { ctl : control; vars : locals; trace : list event }.

Definition start : state :=
  {| ctl := At line13;
     vars := {| connection := NULL; screen := NULL; window := 0;
                title := ""; iconTitle := "" |};
     trace := [] |}.

Definition goto (l : label) (v : locals) (done : list event) (s : state) : state :=
  {| ctl := At l; vars := v; trace := trace s ++ done |}.

Section Main.

Variable lib : xcb_library.

(** One statement of [main]. *)
Definition step (s : state) : state :=
  let v := vars s in
  match ctl s with
  | At line13 =>
      let c := lib_connect lib NULL NULL in
      goto line17
        {| connection := c; screen := screen v; window := window v;
           title := title v; iconTitle := iconTitle v |}
        [Call (xcb_connect NULL NULL)] s
  | At line17 =>
      let R := lib_get_setup lib (connection v) in
      match lib_setup_roots_iterator lib R with
      | None =>
          {| ctl := Crashed; vars := v;
             trace := trace s ++ [Call (xcb_get_setup (connection v));
                                  Call (xcb_setup_roots_iterator R)] |}
      | Some it =>
          goto line22
            {| connection := connection v; screen := data it; window := window v;
               title := title v; iconTitle := iconTitle v |}
            [Call (xcb_get_setup (connection v)); Call (xcb_setup_roots_iterator R)] s
      end
  | At line22 =>
      let w := to_uint32 (lib_generate_id lib (connection v)) in
      goto line23
        {| connection := connection v; screen := screen v; window := w;
           title := title v; iconTitle := iconTitle v |}
        [Call (xcb_generate_id (connection v))] s
  | At line23 =>
      (* C leaves the order of the two argument reads open.  [deref]
         answers for the object as a whole: with an [xcb_screen_t] at
         the pointer both members are read, with none the statement is
         undefined whichever member comes first. *)
      match deref lib (screen v) with
      | None => {| ctl := Crashed; vars := v; trace := trace s |}
      | Some scr =>
          goto line37 v
            [Read (screen v) member_root;
             Read (screen v) member_root_visual;
             Call (xcb_create_window (connection v)
                     (to_uint8 0)
                     (window v)
                     (root scr)
                     (to_int16 0) (to_int16 0)
                     (to_uint16 250) (to_uint16 150)
                     (to_uint16 10)
                     XCB_WINDOW_CLASS_INPUT_OUTPUT
                     (root_visual scr)
                     (to_uint32 0) NULL)] s
      end
  | At line37 =>
      goto line38
        {| connection := connection v; screen := screen v; window := window v;
           title := "Hello World !"; iconTitle := iconTitle v |}
        [] s
  | At line38 =>
      goto line50 v
        [Strlen (title v);
         Call (xcb_change_property (connection v)
                 XCB_PROP_MODE_REPLACE
                 (window v)
                 XCB_ATOM_WM_NAME
                 XCB_ATOM_STRING
                 (to_uint8 8)
                 (to_uint32 (strlen (title v)))
                 (title v))] s
  | At line50 =>
      goto line51
        {| connection := connection v; screen := screen v; window := window v;
           title := title v; iconTitle := "Hello World ! (iconified)" |}
        [] s
  | At line51 =>
      goto line63 v
        [Strlen (iconTitle v);
         Call (xcb_change_property (connection v)
                 XCB_PROP_MODE_REPLACE
                 (window v)
                 XCB_ATOM_WM_ICON_NAME
                 XCB_ATOM_STRING
                 (to_uint8 8)
                 (to_uint32 (strlen (iconTitle v)))
                 (iconTitle v))] s
  | At line63 =>
      goto line64 v [Call (xcb_map_window (connection v) (window v))] s
  | At line64 =>
      goto line68 v [Call (xcb_flush (connection v))] s
  | At line68 =>
      if Z.eqb 1 0 then goto line70 v [] s else goto line68 v [] s
  | At line70 => {| ctl := Exited 0; vars := v; trace := trace s |}
  | Exited _ => s
  | Crashed => s
  end.

Fixpoint run (n : nat) (s : state) : state :=
  match n with
  | O => s
  | S k => step (run k s)
  end.

(** The state of [main] after [n] statements. *)
Definition exec (n : nat) : state := run n start.

End Main.

(** ** Reading a trace *)

Definition requests (t : list event) : list request :=
  omap (fun e => match e with Call r => Some r | _ => None end) t.

Definition loads (t : list event) : list (pointer * screen_member) :=
  omap (fun e => match e with Read p m => Some (p, m) | _ => None end) t.

Definition strlens (t : list event) : list string :=
  omap (fun e => match e with Strlen s => Some s | _ => None end) t.

(** The C identifier of the function a request calls. *)
Definition function_name (r : request) : string :=
  match r with
  | xcb_connect _ _ => "xcb_connect"
  | xcb_get_setup _ => "xcb_get_setup"
  | xcb_setup_roots_iterator _ => "xcb_setup_roots_iterator"
  | xcb_generate_id _ => "xcb_generate_id"
  | xcb_create_window _ _ _ _ _ _ _ _ _ _ _ _ _ => "xcb_create_window"
  | xcb_change_property _ _ _ _ _ _ _ _ => "xcb_change_property"
  | xcb_map_window _ _ => "xcb_map_window"
  | xcb_flush _ => "xcb_flush"
  | xcb_disconnect _ => "xcb_disconnect"
  | xcb_connection_has_error _ => "xcb_connection_has_error"
  | xcb_destroy_window _ _ => "xcb_destroy_window"
  | xcb_unmap_window _ _ => "xcb_unmap_window"
  | xcb_configure_window _ _ _ _ => "xcb_configure_window"
  | xcb_wait_for_event _ => "xcb_wait_for_event"
  | xcb_poll_for_event _ => "xcb_poll_for_event"
  end.

Definition called (name : string) (t : list event) : nat :=
  length (filter (fun r => function_name r = name) (requests t)).

Definition distinct_functions (t : list event) : nat :=
  length (remove_dups (function_name <$> requests t)).

(** What a string literal occupies in memory: its characters and the
    terminating NUL. *)
Definition literal_storage (s : string) : list ascii :=
  list_ascii_of_string s ++ [zero].

(** The bytes a ChangeProperty request carries: [data_len] items of
    [format] bits, read from memory at [data].  A length that reaches
    past the literal's storage reads what is not the literal's
    ([None]). *)
Definition payload (format data_len : Z) (data_ : string) : option (list ascii) :=
  let n := Z.to_nat (data_len * format / 8) in
  if (n <=? length (literal_storage data_))%nat
  then Some (take n (literal_storage data_))
  else None.

(** ** The windows the requests leave on the server

    The X server is outside the repository.  This is the textbook
    reading of the three core requests that make, change and remove a
    window, folded over the requests of a trace: CreateWindow adds the
    window under a fresh id, ConfigureWindow overwrites the geometry
    members selected by the mask (x, y, width, height, border width, in
    bit order), DestroyWindow removes it.  Nothing else touches the
    table. *)
Record window_record := {
  w_depth : Z;
  w_parent : Z;
  w_x : Z; w_y : Z;
  w_width : Z; w_height : Z;
  w_border_width : Z;
  w_class : xcb_window_class_t;
  w_visual : Z
}.

Definition pick (bit mask old : Z) (values : list Z) : Z * list Z :=
  if Z.testbit mask bit then
    match values with
    | v :: rest => (v, rest)
    | [] => (old, [])
    end
  else (old, values).

Definition reconfigure (mask : Z) (values : list Z) (w : window_record) : window_record :=
  let '(x', vs) := pick 0 mask (w_x w) values in
  let '(y', vs) := pick 1 mask (w_y w) vs in
  let '(wd', vs) := pick 2 mask (w_width w) vs in
  let '(ht', vs) := pick 3 mask (w_height w) vs in
  let '(bw', _) := pick 4 mask (w_border_width w) vs in
  {| w_depth := w_depth w; w_parent := w_parent w;
     w_x := x'; w_y := y'; w_width := wd'; w_height := ht';
     w_border_width := bw'; w_class := w_class w; w_visual := w_visual w |}.

Definition serve (ws : gmap Z window_record) (r : request) : gmap Z window_record :=
  match r with
  | xcb_create_window _ depth wid parent x y width height border_width cls visual _ _ =>
      match ws !! wid with
      | Some _ => ws
      | None =>
          <[wid := {| w_depth := depth; w_parent := parent; w_x := x; w_y := y;
                      w_width := width; w_height := height;
                      w_border_width := border_width;
                      w_class := cls; w_visual := visual |}]> ws
      end
  | xcb_configure_window _ w mask values => alter (reconfigure mask values) w ws
  | xcb_destroy_window _ w => delete w ws
  | _ => ws
  end.

Definition windows (t : list event) : gmap Z window_record :=
  foldl serve ∅ (requests t).

(** ** What a run looks like *)

Section Script.

Variable lib : xcb_library.

Definition conn : pointer := lib_connect lib NULL NULL.
Definition setup : pointer := lib_get_setup lib conn.
Definition first_screen : pointer :=
  match lib_setup_roots_iterator lib setup with
  | Some it => data it
  | None => NULL
  end.
Definition wid : Z := to_uint32 (lib_generate_id lib conn).

(** The setup has a first screen, readable where the roots iterator
    points. *)
Definition has_first_screen : Prop := is_Some (deref lib first_screen).

(** The state a faulting roots-iterator call leaves: [screen] and the
    locals after it were never initialised. *)
Definition fault_in_call : state :=
  {| ctl := Crashed;
     vars := {| connection := conn; screen := NULL; window := 0;
                title := ""; iconTitle := "" |};
     trace := [Call (xcb_connect NULL NULL);
               Call (xcb_get_setup conn);
               Call (xcb_setup_roots_iterator setup)] |}.

Definition at_line22 : state :=
  {| ctl := At line22;
     vars := {| connection := conn; screen := first_screen; window := 0;
                title := ""; iconTitle := "" |};
     trace := [Call (xcb_connect NULL NULL);
               Call (xcb_get_setup conn);
               Call (xcb_setup_roots_iterator setup)] |}.

Definition at_line23 : state :=
  {| ctl := At line23;
     vars := {| connection := conn; screen := first_screen; window := wid;
                title := ""; iconTitle := "" |};
     trace := [Call (xcb_connect NULL NULL);
               Call (xcb_get_setup conn);
               Call (xcb_setup_roots_iterator setup);
               Call (xcb_generate_id conn)] |}.

Definition crashed : state :=
  {| ctl := Crashed; vars := vars at_line23; trace := trace at_line23 |}.

Definition at_line37 (scr : xcb_screen_t) : state :=
  {| ctl := At line37;
     vars := vars at_line23;
     trace := trace at_line23 ++
              [Read first_screen member_root;
               Read first_screen member_root_visual;
               Call (xcb_create_window conn 0 wid (root scr) 0 0 250 150 10
                       XCB_WINDOW_CLASS_INPUT_OUTPUT (root_visual scr) 0 NULL)] |}.

End Script.

(** The state [n] statements in, given what the iterator call of line
    17 returns and what the read at line 23 finds.  From line 37 on
    nothing depends on the library any more, and [Nat.min 6] stops the
    count at the loop. *)
Definition outline (lib : xcb_library)
    (ret : option xcb_screen_iterator_t) (found : option xcb_screen_t)
    (n : nat) : state :=
  match n with
  | 0%nat => start
  | 1%nat => run lib 1 start
  | S (S k) =>
      match ret with
      | None => fault_in_call lib
      | Some _ =>
          match k with
          | 0%nat => at_line22 lib
          | 1%nat => at_line23 lib
          | S (S j) =>
              match found with
              | None => crashed lib
              | Some scr => run lib (Nat.min 6 j) (at_line37 lib scr)
              end
          end
      end
  end.

(** The control-flow graph of [main]: each program point has one
    successor. *)
Definition successor (l : label) : control :=
  match l with
  | line13 => At line17
  | line17 => At line22
  | line22 => At line23
  | line23 => At line37
  | line37 => At line38
  | line38 => At line50
  | line50 => At line51
  | line51 => At line63
  | line63 => At line64
  | line64 => At line68
  | line68 => At line68
  | line70 => Exited 0
  end.

Definition straight_line : list label :=
  [line13; line17; line22; line23; line37; line38;
   line50; line51; line63; line64; line68].

(** The six operations the description of the program names, and the
    request that carries each of them out. *)
Inductive operation :=
| open_connection | create_window | set_title | set_icon_title
| map_window | flush.

Definition operation_of (r : request) : option operation :=
  match r with
  | xcb_connect _ _ => Some open_connection
  | xcb_create_window _ _ _ _ _ _ _ _ _ _ _ _ _ => Some create_window
  | xcb_change_property _ _ _ XCB_ATOM_WM_NAME _ _ _ _ => Some set_title
  | xcb_change_property _ _ _ XCB_ATOM_WM_ICON_NAME _ _ _ _ => Some set_icon_title
  | xcb_map_window _ _ => Some map_window
  | xcb_flush _ => Some flush
  | _ => None
  end.

Definition operations (t : list event) : list operation :=
  omap operation_of (requests t).

Definition announced_order : list operation :=
  [open_connection; create_window; set_title; set_icon_title; map_window; flush].

(** The run reaches the loop having carried out the six operations, each
    once, in the announced order. *)
Definition performs_announced_order (lib : xcb_library) : Prop :=
  exists n, ctl (exec lib n) = At line68 /\
            operations (trace (exec lib n)) = announced_order.

(** The window record a CreateWindow request with the arguments of line
    23 makes. *)
Definition created_window (scr : xcb_screen_t) : window_record :=
  {| w_depth := 0; w_parent := root scr; w_x := 0; w_y := 0;
     w_width := 250; w_height := 150; w_border_width := 10;
     w_class := XCB_WINDOW_CLASS_INPUT_OUTPUT; w_visual := root_visual scr |}.

(** ** Three concrete libraries *)

(** A server with one screen: the setup sits at 8192, its first screen
    40 bytes further. *)
Definition lib_one_screen : xcb_library :=
  {| lib_connect := fun _ _ => 4096;
     lib_get_setup := fun c => if Z.eqb c 4096 then 8192 else NULL;
     lib_setup_roots_iterator := fun R =>
       if Z.eqb R 8192
       then Some {| data := 8232; rem := 1; index := 40 |}
       else None;
     lib_generate_id := fun _ => 2097152;
     lib_screens := fun p =>
       if Z.eqb p 8232 then Some {| root := 1234; root_visual := 33 |} else None |}.

(** No server to talk to, with a libxcb whose [xcb_get_setup] answers
    null for a failed connection: [xcb_connect] still returns a
    connection object (here at 4096), there is no setup behind it, the
    roots iterator faults reading the null setup, and
    [xcb_generate_id] would answer -1. *)
Definition lib_null_setup : xcb_library :=
  {| lib_connect := fun _ _ => 4096;
     lib_get_setup := fun _ => NULL;
     lib_setup_roots_iterator := fun R =>
       if Z.eqb R NULL
       then None
       else Some {| data := R + 40; rem := 0; index := 40 |};
     lib_generate_id := fun _ => 4294967295;
     lib_screens := fun _ => None |}.

(** A library that hands [main] a null screen pointer.  libxcb itself
    computes [data] from the setup's address and so never answers like
    this; the record is here to drive the unguarded read of line 23. *)
Definition lib_no_screen : xcb_library :=
  {| lib_connect := fun _ _ => 4096;
     lib_get_setup := fun _ => NULL;
     lib_setup_roots_iterator := fun _ =>
       Some {| data := NULL; rem := 0; index := 0 |};
     lib_generate_id := fun _ => 4294967295;
     lib_screens := fun _ => None |}.

(** ** Whom a request is addressed to *)

(** The connection and the window a request is addressed to, for the
    requests that name one. *)
Definition connection_of (r : request) : option pointer :=
  match r with
  | xcb_connect _ _ => None
  | xcb_setup_roots_iterator _ => None
  | xcb_get_setup c | xcb_generate_id c | xcb_flush c | xcb_disconnect c
  | xcb_connection_has_error c | xcb_wait_for_event c | xcb_poll_for_event c
  | xcb_map_window c _ | xcb_destroy_window c _ | xcb_unmap_window c _
  | xcb_configure_window c _ _ _
  | xcb_create_window c _ _ _ _ _ _ _ _ _ _ _ _
  | xcb_change_property c _ _ _ _ _ _ _ => Some c
  end.

Definition window_of (r : request) : option Z :=
  match r with
  | xcb_create_window _ _ w _ _ _ _ _ _ _ _ _ _ => Some w
  | xcb_change_property _ _ w _ _ _ _ _ => Some w
  | xcb_map_window _ w | xcb_destroy_window _ w | xcb_unmap_window _ w
  | xcb_configure_window _ w _ _ => Some w
  | _ => None
  end.

(** The functions [main] calls, by name. *)
Definition main_functions : list string :=
  ["xcb_connect"; "xcb_get_setup"; "xcb_setup_roots_iterator";
   "xcb_generate_id"; "xcb_create_window"; "xcb_change_property";
   "xcb_map_window"; "xcb_flush"].

(** * Properties *)

(** ** Running the machine *)

Lemma run_fixed lib (s : state) :
  step lib s = s -> forall k, run lib k s = s.
Proof.
  intros Hs k. induction k as [|k IH]; [reflexivity|].
  cbn [run]. now rewrite IH.
Qed.

Lemma first_screen_returned lib it :
  lib_setup_roots_iterator lib (setup lib) = Some it ->
  first_screen lib = data it.
Proof. intros H. unfold first_screen. now rewrite H. Qed.

(** What the library answers at lines 17 and 23: the iterator call
    faults, or it returns and no screen is readable, or it returns and
    one is. *)
Lemma situation lib :
  (lib_setup_roots_iterator lib (setup lib) = None /\
   deref lib (first_screen lib) = None) \/
  (exists it, lib_setup_roots_iterator lib (setup lib) = Some it /\
              deref lib (first_screen lib) = None) \/
  (exists it scr, lib_setup_roots_iterator lib (setup lib) = Some it /\
                  deref lib (first_screen lib) = Some scr).
Proof.
  destruct (lib_setup_roots_iterator lib (setup lib)) as [it|] eqn:Hret.
  - right. destruct (deref lib (first_screen lib)) as [scr|] eqn:Hscr.
    + right. now exists it, scr.
    + left. now exists it.
  - left. split; [reflexivity|]. unfold first_screen. now rewrite Hret.
Qed.

Lemma outline_step lib n :
  outline lib (lib_setup_roots_iterator lib (setup lib))
          (deref lib (first_screen lib)) (S n) =
  step lib (outline lib (lib_setup_roots_iterator lib (setup lib))
                    (deref lib (first_screen lib)) n).
Proof.
  destruct (situation lib)
    as [[Hret Hscr]|[(it & Hret & Hscr)|(it & scr & Hret & Hscr)]];
    rewrite Hret, Hscr.
  - destruct n as [|[|n]]; try reflexivity.
    cbn [outline run]. unfold step at 1. cbn.
    unfold setup, conn in Hret. now rewrite Hret.
  - pose proof (first_screen_returned lib it Hret) as Hfs.
    destruct n as [|[|[|[|n]]]]; try reflexivity.
    + cbn [outline run]. unfold step at 1. cbn.
      unfold at_line22. rewrite Hfs.
      unfold setup, conn in Hret. now rewrite Hret.
    + cbn [outline]. unfold step. cbn [ctl vars at_line23 screen].
      now rewrite Hscr.
  - pose proof (first_screen_returned lib it Hret) as Hfs.
    destruct n as [|[|[|[|n]]]]; try reflexivity.
    + cbn [outline run]. unfold step at 1. cbn.
      unfold at_line22. rewrite Hfs.
      unfold setup, conn in Hret. now rewrite Hret.
    + cbn [outline]. unfold step. cbn [ctl vars at_line23 screen].
      now rewrite Hscr.
    + cbn [outline]. destruct n as [|[|[|[|[|[|n]]]]]]; reflexivity.
Qed.

(** Every reachable state is one of the outline's. *)
Lemma exec_outline lib n :
  exec lib n = outline lib (lib_setup_roots_iterator lib (setup lib))
                       (deref lib (first_screen lib)) n.
Proof.
  induction n as [|n IH]; [reflexivity|].
  rewrite outline_step, <- IH. reflexivity.
Qed.

(** Case analysis over the reachable states: the three answers of the
    library, and every statement count up to the loop. *)
Ltac walk n :=
  rewrite ?exec_outline;
  match goal with
  | |- context [outline ?l _ _ _] =>
      let it := fresh "it" in
      let scr := fresh "scr" in
      let Hret := fresh "Hret" in
      let Hscr := fresh "Hscr" in
      destruct (situation l)
        as [[Hret Hscr]|[(it & Hret & Hscr)|(it & scr & Hret & Hscr)]];
      rewrite ?Hret, ?Hscr
  end;
  destruct n as [|[|[|[|[|[|[|[|[|[|n]]]]]]]]]];
  cbn [outline Nat.min].

Lemma screen_needs_iterator lib scr :
  deref lib (first_screen lib) = Some scr ->
  exists it, lib_setup_roots_iterator lib (setup lib) = Some it.
Proof.
  intros H.
  destruct (situation lib)
    as [[Hret Hscr]|[(it & Hret & Hscr)|(it & scr' & Hret & Hscr)]];
    try (rewrite Hscr in H; discriminate H).
  now exists it.
Qed.

Lemma exec_loop lib scr m :
  deref lib (first_screen lib) = Some scr -> (10 <= m)%nat ->
  exec lib m = run lib 6 (at_line37 lib scr).
Proof.
  intros H Hm. destruct (screen_needs_iterator lib scr H) as [it Hret].
  rewrite exec_outline, Hret, H.
  do 10 (destruct m as [|m]; [lia|]). reflexivity.
Qed.

Lemma exec_faulted lib m :
  deref lib (first_screen lib) = None -> (4 <= m)%nat ->
  ctl (exec lib m) = Crashed.
Proof.
  intros H Hm. rewrite exec_outline, H.
  do 4 (destruct m as [|m]; [lia|]).
  cbn [outline]. destruct (lib_setup_roots_iterator lib (setup lib)); reflexivity.
Qed.

Lemma at_loop_late lib n :
  ctl (exec lib n) = At line68 ->
  exists scr, deref lib (first_screen lib) = Some scr /\ (10 <= n)%nat.
Proof.
  walk n; intros H; try discriminate H.
  exists scr. split; [reflexivity|lia].
Qed.

Lemma mapped_late lib n :
  (0 < called "xcb_map_window" (trace (exec lib n)))%nat ->
  exists scr, deref lib (first_screen lib) = Some scr /\ (9 <= n)%nat.
Proof.
  walk n; intros H; try (exfalso; revert H; vm_compute; lia);
    exists scr; (split; [reflexivity|lia]).
Qed.

Lemma never_crashes lib scr n :
  deref lib (first_screen lib) = Some scr -> ctl (exec lib n) <> Crashed.
Proof.
  intros H. destruct (screen_needs_iterator lib scr H) as [it Hret].
  rewrite exec_outline, Hret, H.
  destruct n as [|[|[|[|[|[|[|[|[|[|n]]]]]]]]]]; cbn [outline Nat.min];
    discriminate.
Qed.

Lemma has_first_screen_one : has_first_screen lib_one_screen.
Proof. eexists. reflexivity. Qed.

(** ** C1 *)

(** C1, as stated, fails on a machine without a server whose libxcb
    answers a null setup for the failed connection: the roots iterator
    faults reading it, inside the call of line 17, so the window is
    never created and the run never reaches the loop with the six
    operations done. *)
Lemma C1_counterexample :
  exec lib_null_setup 2 = fault_in_call lib_null_setup /\
  ~ (exists n, In create_window (operations (trace (exec lib_null_setup n)))) /\
  ~ performs_announced_order lib_null_setup.
Proof.
  split; [reflexivity|]. split.
  - intros [n H]. revert H. rewrite exec_outline.
    destruct n as [|[|n]]; cbn; intuition discriminate.
  - intros (n & Hloop & _).
    destruct (at_loop_late _ _ Hloop) as (scr & Hscr & _).
    discriminate Hscr.
Qed.

(** C1, amended: at every moment of every run the operations carried
    out so far are an initial part of connect, create window, set
    title, set icon title, map, flush (none skipped, repeated or out of
    place), and a run that is in the loop has carried out all six.
    When the connection setup has a readable first screen the run does
    get there, after ten statements and with exactly the nine requests
    listed. *)
Theorem C1_calls_in_announced_order lib :
  (forall n, exists k, operations (trace (exec lib n)) = take k announced_order) /\
  (forall n, ctl (exec lib n) = At line68 ->
             operations (trace (exec lib n)) = announced_order) /\
  (has_first_screen lib ->
   performs_announced_order lib /\
   (forall n, ctl (exec lib n) = At line68 <-> (10 <= n)%nat) /\
   exists scr, deref lib (first_screen lib) = Some scr /\
     requests (trace (exec lib 10)) =
     [xcb_connect NULL NULL;
      xcb_get_setup (conn lib);
      xcb_setup_roots_iterator (setup lib);
      xcb_generate_id (conn lib);
      xcb_create_window (conn lib) 0 (wid lib) (root scr) 0 0 250 150 10
        XCB_WINDOW_CLASS_INPUT_OUTPUT (root_visual scr) 0 NULL;
      xcb_change_property (conn lib) XCB_PROP_MODE_REPLACE (wid lib)
        XCB_ATOM_WM_NAME XCB_ATOM_STRING 8 13 "Hello World !";
      xcb_change_property (conn lib) XCB_PROP_MODE_REPLACE (wid lib)
        XCB_ATOM_WM_ICON_NAME XCB_ATOM_STRING 8 25 "Hello World ! (iconified)";
      xcb_map_window (conn lib) (wid lib);
      xcb_flush (conn lib)]).
Proof.
  split; [|split].
  - intros n. walk n;
      first [ now exists 0%nat | now exists 1%nat | now exists 2%nat
            | now exists 3%nat | now exists 4%nat | now exists 5%nat
            | now exists 6%nat ].
  - intros n. walk n; intros H; try discriminate H; reflexivity.
  - intros [scr Hscr]. split; [|split].
    + exists 10%nat. rewrite (exec_loop lib scr) by (assumption || lia).
      split; reflexivity.
    + intros n. split.
      * intros H. now destruct (at_loop_late lib n H) as (? & _ & ?).
      * intros H. now rewrite (exec_loop lib scr).
    + exists scr. split; [assumption|].
      rewrite (exec_loop lib scr) by (assumption || lia). reflexivity.
Qed.

Lemma C1_calls_in_announced_order_witness :
  has_first_screen lib_one_screen /\ performs_announced_order lib_one_screen.
Proof.
  split; [exact has_first_screen_one|].
  exact (proj1 (proj2 (proj2 (C1_calls_in_announced_order lib_one_screen))
                  has_first_screen_one)).
Defined.

(** ** C2 *)

(** C2: [main] never returns.  No reachable state has left [main] or
    stands at [return 0], whatever the library answers; once the window
    is mapped the next statement but one is the loop, and a run that is
    in the loop stays in the very same state for ever. *)
Theorem C2_main_never_returns lib n :
  (forall status, ctl (exec lib n) <> Exited status) /\
  ctl (exec lib n) <> At line70 /\
  ((0 < called "xcb_map_window" (trace (exec lib n)))%nat ->
   forall k, ctl (exec lib (n + S k)) = At line68) /\
  (ctl (exec lib n) = At line68 ->
   forall k, exec lib (n + k) = exec lib n).
Proof.
  split; [|split; [|split]].
  - intros status. walk n; discriminate.
  - walk n; discriminate.
  - intros Hmap k. destruct (mapped_late lib n Hmap) as (scr & Hscr & Hn).
    rewrite (exec_loop lib scr) by (assumption || lia). reflexivity.
  - intros Hloop k. destruct (at_loop_late lib n Hloop) as (scr & Hscr & Hn).
    rewrite !(exec_loop lib scr) by (assumption || lia). reflexivity.
Qed.

Lemma C2_main_never_returns_witness :
  (0 < called "xcb_map_window" (trace (exec lib_one_screen 9)))%nat /\
  ctl (exec lib_one_screen 10) = At line68 /\
  ctl (exec lib_one_screen (9 + 1)) = At line68 /\
  exec lib_one_screen (10 + 1000) = exec lib_one_screen 10.
Proof.
  split; [vm_compute; lia|]. split; [reflexivity|]. split.
  - apply (proj1 (proj2 (proj2 (C2_main_never_returns lib_one_screen 9)))).
    vm_compute; lia.
  - apply (proj2 (proj2 (proj2 (C2_main_never_returns lib_one_screen 10)))).
    reflexivity.
Defined.

(** ** C3 *)

(** C3, as stated, fails on the same machine: the run faults inside
    the roots-iterator call of line 17, before line 23 can call
    [xcb_create_window], and no window is ever created. *)
Lemma C3_counterexample :
  ctl (exec lib_null_setup 2) = Crashed /\
  ~ (exists n, called "xcb_create_window" (trace (exec lib_null_setup n)) <> 0%nat).
Proof.
  split; [reflexivity|].
  intros [n H]. apply H. rewrite exec_outline.
  destruct n as [|[|n]]; reflexivity.
Qed.

(** C3, amended: a run creates at most one window, and exactly one from
    the fourth statement on when the first screen is readable.  In
    every reachable state after the creation the server's window table
    holds that window, and only it, with the geometry, parent, class and
    visual it was created with; no run issues a destroy, configure
    (move, resize, restack) or unmap request. *)
Theorem C3_one_window_kept_unchanged lib n :
  (called "xcb_create_window" (trace (exec lib n)) <= 1)%nat /\
  called "xcb_destroy_window" (trace (exec lib n)) = 0%nat /\
  called "xcb_configure_window" (trace (exec lib n)) = 0%nat /\
  called "xcb_unmap_window" (trace (exec lib n)) = 0%nat /\
  (called "xcb_create_window" (trace (exec lib n)) = 1%nat ->
   exists scr, deref lib (first_screen lib) = Some scr /\
               windows (trace (exec lib n)) = {[ wid lib := created_window scr ]}) /\
  (has_first_screen lib -> (4 <= n)%nat ->
   called "xcb_create_window" (trace (exec lib n)) = 1%nat).
Proof.
  split; [|split; [|split; [|split; [|split]]]].
  - walk n; vm_compute; lia.
  - walk n; reflexivity.
  - walk n; reflexivity.
  - walk n; reflexivity.
  - walk n; intros H; try (exfalso; revert H; vm_compute; discriminate);
      exists scr; (split; [reflexivity|]);
      unfold windows; cbn; now rewrite lookup_empty.
  - intros [scr Hscr] Hn. destruct (screen_needs_iterator lib scr Hscr) as [it Hret].
      rewrite exec_outline, Hret, Hscr.
    do 4 (destruct n as [|n]; [lia|]).
    destruct n as [|[|[|[|[|[|n]]]]]]; reflexivity.
Qed.

Lemma C3_one_window_kept_unchanged_witness :
  has_first_screen lib_one_screen /\ (4 <= 10)%nat /\
  called "xcb_create_window" (trace (exec lib_one_screen 10)) = 1%nat /\
  exists scr, windows (trace (exec lib_one_screen 10)) = {[ 2097152 := created_window scr ]}.
Proof.
  pose proof (C3_one_window_kept_unchanged lib_one_screen 10) as (_ & _ & _ & _ & Hkept & Hone).
  assert (H1 : called "xcb_create_window" (trace (exec lib_one_screen 10)) = 1%nat)
    by (apply Hone; [exact has_first_screen_one|lia]).
  split; [exact has_first_screen_one|]. split; [lia|]. split; [exact H1|].
  destruct (Hkept H1) as (scr & _ & Hw). exists scr. exact Hw.
Defined.

(** ** C4 *)

(** C4: the connection is opened once, by the first call of every run,
    and never closed: [xcb_connect] is the head of every non-empty
    trace and occurs once in it, [xcb_disconnect] occurs in none, and
    the variable [connection] keeps the handle from then on. *)
Theorem C4_connection_never_closed lib n :
  called "xcb_disconnect" (trace (exec lib n)) = 0%nat /\
  trace (exec lib 0) = [] /\
  head (trace (exec lib (S n))) = Some (Call (xcb_connect NULL NULL)) /\
  called "xcb_connect" (trace (exec lib (S n))) = 1%nat /\
  connection (vars (exec lib (S n))) = conn lib.
Proof.
  split; [walk n; reflexivity|]. split; [reflexivity|].
  split; [walk n; reflexivity|]. split; walk n; reflexivity.
Qed.

(** ** C5 *)

(** C5, as stated, fails on the machine without a server: the straight
    line breaks off inside the roots-iterator call of line 17 and
    control never gets to the final loop. *)
Lemma C5_counterexample :
  ctl (exec lib_null_setup 2) = Crashed /\
  ~ (exists n, ctl (exec lib_null_setup n) = At line68).
Proof.
  split; [reflexivity|].
  intros [n Hloop]. destruct (at_loop_late _ _ Hloop) as (scr & Hscr & _).
  discriminate Hscr.
Qed.

(** C5, amended: no error handling.  Every program point has a single
    successor that depends neither on the variables nor on what the
    library returned; the only other outcome of a statement is a fault,
    of the roots-iterator call at line 17 or of the unguarded read at
    line 23, never a branch.  Hence after [n] statements a run stands at
    the [n]-th point of one fixed straight line, which ends in the loop,
    unless it has faulted; with a readable first screen it never faults
    and so gets to the loop, without one it is faulted from the fourth
    statement on; and no run asks the connection for its error
    status. *)
Theorem C5_no_error_handling lib :
  (forall s l, ctl s = At l ->
     ctl (step lib s) = successor l \/
     (l = line17 /\
      lib_setup_roots_iterator lib (lib_get_setup lib (connection (vars s))) = None /\
      ctl (step lib s) = Crashed) \/
     (l = line23 /\ deref lib (screen (vars s)) = None /\
      step lib s = {| ctl := Crashed; vars := vars s; trace := trace s |})) /\
  (forall n, ctl (exec lib n) = At (nth n straight_line line68) \/
             (ctl (exec lib n) = Crashed /\ ~ has_first_screen lib /\ (2 <= n)%nat)) /\
  (forall n, called "xcb_connection_has_error" (trace (exec lib n)) = 0%nat) /\
  (has_first_screen lib ->
   forall n, ctl (exec lib n) = At (nth n straight_line line68)) /\
  (~ has_first_screen lib ->
   forall n, (4 <= n)%nat -> ctl (exec lib n) = Crashed).
Proof.
  split; [|split; [|split; [|split]]].
  - intros s l Hl. unfold step. rewrite Hl.
    destruct l; try (left; reflexivity).
    + destruct (lib_setup_roots_iterator lib
                  (lib_get_setup lib (connection (vars s)))) as [it|];
        [left; reflexivity|right; left; repeat split].
    + destruct (deref lib (screen (vars s))); [left; reflexivity|].
      right; right. repeat split.
  - intros n. unfold has_first_screen. walk n;
      try (left; reflexivity); try (left; destruct n as [|[|n]]; reflexivity);
      right; (split; [reflexivity|split; [intros [? ?]; discriminate|lia]]).
  - intros n. walk n; reflexivity.
  - intros [scr Hscr] n.
    destruct (screen_needs_iterator lib scr Hscr) as [it Hret].
      rewrite exec_outline, Hret, Hscr.
    destruct n as [|[|[|[|[|[|[|[|[|[|n]]]]]]]]]]; cbn [outline Nat.min];
      try reflexivity.
    destruct n as [|[|n]]; reflexivity.
  - intros Hnone n Hn. apply exec_faulted; [|exact Hn].
    destruct (deref lib (first_screen lib)) as [scr|] eqn:Hscr; [|reflexivity].
    exfalso. apply Hnone. now exists scr.
Qed.

Lemma C5_no_error_handling_witness :
  has_first_screen lib_one_screen /\
  ctl (exec lib_one_screen 10) = At line68 /\
  ctl (step lib_one_screen (at_line23 lib_one_screen)) = At line37 /\
  ~ has_first_screen lib_null_setup /\
  ctl (exec lib_null_setup 4) = Crashed.
Proof.
  assert (H : has_first_screen lib_one_screen) by (eexists; reflexivity).
  assert (H' : ~ has_first_screen lib_null_setup) by (intros [? ?]; discriminate).
  split; [exact H|]. split; [|split; [|split]].
  - exact (proj1 (proj2 (proj2 (proj2 (C5_no_error_handling lib_one_screen)))) H 10%nat).
  - destruct (proj1 (C5_no_error_handling lib_one_screen)
                (at_line23 lib_one_screen) line23 eq_refl)
      as [Hs|[(Hl & _)|(_ & Hd & _)]].
    + exact Hs.
    + discriminate Hl.
    + discriminate Hd.
  - exact H'.
  - exact (proj2 (proj2 (proj2 (proj2 (C5_no_error_handling lib_null_setup))))
             H' 4%nat (le_n 4)).
Defined.

(** ** C6 *)

(** C6: the loop body is empty.  A state that stands at the loop is
    mapped to itself by one iteration, and so by any number of them:
    control, all five variables and the trace (hence the window and its
    properties) are the same; and no run ever asks for an event. *)
Theorem C6_loop_changes_nothing lib s (Hloop : ctl s = At line68) :
  step lib s = s /\
  (forall k, run lib k s = s) /\
  (forall n, called "xcb_wait_for_event" (trace (exec lib n)) = 0%nat /\
             called "xcb_poll_for_event" (trace (exec lib n)) = 0%nat).
Proof.
  assert (Hs : step lib s = s).
  { destruct s as [c v t]. cbn in Hloop. subst c.
    unfold step, goto. cbn. now rewrite app_nil_r. }
  split; [exact Hs|]. split; [now apply run_fixed|].
  intros n. split; walk n; reflexivity.
Qed.

Lemma C6_loop_changes_nothing_witness :
  ctl (exec lib_one_screen 10) = At line68 /\
  step lib_one_screen (exec lib_one_screen 10) = exec lib_one_screen 10.
Proof.
  split; [reflexivity|].
  apply (C6_loop_changes_nothing lib_one_screen (exec lib_one_screen 10)).
  reflexivity.
Defined.

(** ** C7 *)

(** C7, as stated, fails: on a run that reaches the loop, neither the
    number of calls into libxcb nor the number of distinct libxcb
    functions called is four or five. *)
Lemma C7_counterexample :
  ctl (exec lib_one_screen 10) = At line68 /\
  ~ (length (requests (trace (exec lib_one_screen 10))) = 4%nat \/
     length (requests (trace (exec lib_one_screen 10))) = 5%nat) /\
  ~ (distinct_functions (trace (exec lib_one_screen 10)) = 4%nat \/
     distinct_functions (trace (exec lib_one_screen 10)) = 5%nat).
Proof.
  split; [reflexivity|]. split; vm_compute; intros [H|H]; discriminate H.
Qed.

(** C7, amended: a run that stands at the loop has made nine calls into
    libxcb, to eight distinct functions ([xcb_change_property] is called
    twice), and two calls of the C library's [strlen]. *)
Theorem C7_nine_library_calls lib n (Hloop : ctl (exec lib n) = At line68) :
  function_name <$> requests (trace (exec lib n)) =
    ["xcb_connect"; "xcb_get_setup"; "xcb_setup_roots_iterator";
     "xcb_generate_id"; "xcb_create_window"; "xcb_change_property";
     "xcb_change_property"; "xcb_map_window"; "xcb_flush"] /\
  length (requests (trace (exec lib n))) = 9%nat /\
  distinct_functions (trace (exec lib n)) = 8%nat /\
  called "xcb_change_property" (trace (exec lib n)) = 2%nat /\
  strlens (trace (exec lib n)) = ["Hello World !"; "Hello World ! (iconified)"].
Proof.
  destruct (at_loop_late lib n Hloop) as (scr & Hscr & Hn).
  rewrite (exec_loop lib scr) by (assumption || lia).
  repeat split; reflexivity.
Qed.

Lemma C7_nine_library_calls_witness :
  ctl (exec lib_one_screen 10) = At line68 /\
  length (requests (trace (exec lib_one_screen 10))) = 9%nat.
Proof.
  split; [reflexivity|].
  exact (proj1 (proj2 (C7_nine_library_calls lib_one_screen 10 eq_refl))).
Defined.

(** ** C8 *)

(** C8: whatever the library answers, a CreateWindow request found in a
    trace has depth 0, position (0, 0), width 250, height 150, border
    width 10, class INPUT_OUTPUT, value mask 0 with no value list; its
    parent and visual are [root] and [root_visual] of the first screen,
    and it names the connection and the freshly generated id.  When the
    first screen is readable that request is in the trace from the
    fourth statement on. *)
Theorem C8_window_parameters lib n :
  (forall c depth w parent x y width height border cls visual mask vlist,
     In (Call (xcb_create_window c depth w parent x y width height
                 border cls visual mask vlist))
        (trace (exec lib n)) ->
     depth = 0 /\ x = 0 /\ y = 0 /\ width = 250 /\ height = 150 /\ border = 10 /\
     cls = XCB_WINDOW_CLASS_INPUT_OUTPUT /\ mask = 0 /\ vlist = NULL /\
     c = conn lib /\ w = wid lib /\
     exists scr, deref lib (first_screen lib) = Some scr /\
                 parent = root scr /\ visual = root_visual scr) /\
  (has_first_screen lib -> (4 <= n)%nat ->
   exists scr, deref lib (first_screen lib) = Some scr /\
     In (Call (xcb_create_window (conn lib) 0 (wid lib) (root scr) 0 0 250 150 10
                 XCB_WINDOW_CLASS_INPUT_OUTPUT (root_visual scr) 0 NULL))
        (trace (exec lib n))).
Proof.
  split.
  - intros c depth w parent x y width height border cls visual mask vlist.
    walk n; cbn; intros Hin;
      repeat (destruct Hin as [Hin|Hin]; try discriminate Hin);
      try contradiction;
      inversion Hin; subst;
      repeat (split; [reflexivity|]); exists scr; repeat split.
  - intros [scr Hscr] Hn. exists scr. split; [assumption|].
    destruct (screen_needs_iterator lib scr Hscr) as [it Hret].
      rewrite exec_outline, Hret, Hscr.
    do 4 (destruct n as [|n]; [lia|]).
    destruct n as [|[|[|[|[|[|n]]]]]]; cbn; tauto.
Qed.

Lemma C8_window_parameters_witness :
  has_first_screen lib_one_screen /\ (4 <= 4)%nat /\
  In (Call (xcb_create_window 4096 0 2097152 1234 0 0 250 150 10
              XCB_WINDOW_CLASS_INPUT_OUTPUT 33 0 NULL))
     (trace (exec lib_one_screen 4)) /\
  exists scr, deref lib_one_screen (first_screen lib_one_screen) = Some scr /\
              1234 = root scr /\ 33 = root_visual scr.
Proof.
  assert (Hin : In (Call (xcb_create_window 4096 0 2097152 1234 0 0 250 150 10
                            XCB_WINDOW_CLASS_INPUT_OUTPUT 33 0 NULL))
                   (trace (exec lib_one_screen 4))).
  { destruct (proj2 (C8_window_parameters lib_one_screen 4)
                has_first_screen_one (le_n 4)) as (scr & Hscr & Hin).
    injection Hscr as <-. exact Hin. }
  split; [exact has_first_screen_one|]. split; [lia|]. split; [exact Hin|].
  apply (proj1 (C8_window_parameters lib_one_screen 4) _ _ _ _ _ _ _ _ _ _ _ _ _ Hin).
Defined.

(** ** C9 *)

(** C9: whatever the library answers, a ChangeProperty request found in
    a trace replaces, on the generated window id, a property of type
    STRING in 8-bit format, with a length that is [strlen] of its data,
    so that the bytes it carries are the characters of the literal
    without the NUL; it is either WM_NAME with "Hello World !" and
    length 13 or WM_ICON_NAME with "Hello World ! (iconified)" and
    length 25.  When the connection setup has a readable first screen
    the WM_NAME request is in the trace from the sixth statement on and
    the WM_ICON_NAME request from the eighth, in this order and with no
    third one; they carry the 13 and the 25 bytes of the two
    literals. *)
Theorem C9_title_properties lib n :
  (forall c mode w prop ty fmt len dat,
     In (Call (xcb_change_property c mode w prop ty fmt len dat))
        (trace (exec lib n)) ->
     mode = XCB_PROP_MODE_REPLACE /\ c = conn lib /\ w = wid lib /\
     ty = XCB_ATOM_STRING /\ fmt = 8 /\ len = strlen dat /\
     payload fmt len dat = Some (list_ascii_of_string dat) /\
     ((prop = XCB_ATOM_WM_NAME /\ dat = "Hello World !" /\ len = 13) \/
      (prop = XCB_ATOM_WM_ICON_NAME /\ dat = "Hello World ! (iconified)" /\
       len = 25))) /\
  (has_first_screen lib -> (6 <= n)%nat ->
   In (Call (xcb_change_property (conn lib) XCB_PROP_MODE_REPLACE (wid lib)
               XCB_ATOM_WM_NAME XCB_ATOM_STRING 8 13 "Hello World !"))
      (trace (exec lib n))) /\
  (has_first_screen lib -> (8 <= n)%nat ->
   In (Call (xcb_change_property (conn lib) XCB_PROP_MODE_REPLACE (wid lib)
               XCB_ATOM_WM_ICON_NAME XCB_ATOM_STRING 8 25
               "Hello World ! (iconified)"))
      (trace (exec lib n)) /\
   filter (fun r => function_name r = "xcb_change_property")
          (requests (trace (exec lib n))) =
   [xcb_change_property (conn lib) XCB_PROP_MODE_REPLACE (wid lib)
      XCB_ATOM_WM_NAME XCB_ATOM_STRING 8 13 "Hello World !";
    xcb_change_property (conn lib) XCB_PROP_MODE_REPLACE (wid lib)
      XCB_ATOM_WM_ICON_NAME XCB_ATOM_STRING 8 25 "Hello World ! (iconified)"]) /\
  (exists bytes, payload 8 13 "Hello World !" = Some bytes /\
                 length bytes = 13%nat /\
                 string_of_list_ascii bytes = "Hello World !") /\
  (exists bytes, payload 8 25 "Hello World ! (iconified)" = Some bytes /\
                 length bytes = 25%nat /\
                 string_of_list_ascii bytes = "Hello World ! (iconified)").
Proof.
  split; [|split; [|split; [|split]]].
  - intros c mode w prop ty fmt len dat.
    walk n; cbn; intros Hin;
      repeat (destruct Hin as [Hin|Hin]; try discriminate Hin);
      try contradiction;
      inversion Hin; subst;
      repeat (split; [reflexivity|]);
      first [ left; repeat split; reflexivity | right; repeat split; reflexivity ].
  - intros [scr Hscr] Hn.
    destruct (screen_needs_iterator lib scr Hscr) as [it Hret].
      rewrite exec_outline, Hret, Hscr.
    do 6 (destruct n as [|n]; [lia|]).
    destruct n as [|[|[|[|n]]]]; cbn; tauto.
  - intros [scr Hscr] Hn.
    destruct (screen_needs_iterator lib scr Hscr) as [it Hret].
      rewrite exec_outline, Hret, Hscr.
    do 8 (destruct n as [|n]; [lia|]).
    destruct n as [|[|n]]; (split; [cbn; tauto|reflexivity]).
  - eexists. repeat split.
  - eexists. repeat split.
Qed.

Lemma C9_title_properties_witness :
  has_first_screen lib_one_screen /\ (6 <= 6)%nat /\ (8 <= 8)%nat /\
  In (Call (xcb_change_property 4096 XCB_PROP_MODE_REPLACE 2097152
              XCB_ATOM_WM_NAME XCB_ATOM_STRING 8 13 "Hello World !"))
     (trace (exec lib_one_screen 6)) /\
  In (Call (xcb_change_property 4096 XCB_PROP_MODE_REPLACE 2097152
              XCB_ATOM_WM_ICON_NAME XCB_ATOM_STRING 8 25
              "Hello World ! (iconified)"))
     (trace (exec lib_one_screen 8)) /\
  payload 8 13 "Hello World !" = Some (list_ascii_of_string "Hello World !") /\
  payload 8 25 "Hello World ! (iconified)" =
  Some (list_ascii_of_string "Hello World ! (iconified)").
Proof.
  pose proof (proj1 (proj2 (C9_title_properties lib_one_screen 6))
                has_first_screen_one (le_n 6)) as Hname.
  pose proof (proj1 (proj1 (proj2 (proj2 (C9_title_properties lib_one_screen 8)))
                       has_first_screen_one (le_n 8))) as Hicon.
  split; [exact has_first_screen_one|]. split; [lia|]. split; [lia|].
  split; [exact Hname|]. split; [exact Hicon|]. split.
  - apply (proj1 (C9_title_properties lib_one_screen 6) _ _ _ _ _ _ _ _ Hname).
  - apply (proj1 (C9_title_properties lib_one_screen 8) _ _ _ _ _ _ _ _ Hicon).
Defined.

(** ** C10 *)

(** C10: [main] reads through [screen] with no test in front: when
    nothing is readable there, the fourth statement faults.  When the
    setup has a first screen, no reachable state is a fault, the pointer
    is not null, and the reads through it are none before line 23 and
    exactly [screen->root] and [screen->root_visual] after it. *)
Theorem C10_screen_reads lib :
  (deref lib (first_screen lib) = None -> ctl (exec lib 4) = Crashed) /\
  (has_first_screen lib ->
   first_screen lib <> NULL /\
   (forall n, ctl (exec lib n) <> Crashed) /\
   (forall n, (2 <= n)%nat -> screen (vars (exec lib n)) = first_screen lib) /\
   (forall n, (n <= 3)%nat -> loads (trace (exec lib n)) = []) /\
   (forall n, (4 <= n)%nat ->
      loads (trace (exec lib n)) =
      [(first_screen lib, member_root); (first_screen lib, member_root_visual)])).
Proof.
  split.
  - intros Hnone. now apply exec_faulted.
  - intros [scr Hscr]. split; [|split; [|split; [|split]]].
    + intros Hnull. unfold deref in Hscr. rewrite Hnull in Hscr. discriminate Hscr.
    + intros n. now apply (never_crashes lib scr).
    + intros n Hn. destruct (screen_needs_iterator lib scr Hscr) as [it Hret].
      rewrite exec_outline, Hret, Hscr.
      do 2 (destruct n as [|n]; [lia|]).
      destruct n as [|[|[|[|[|[|[|[|n]]]]]]]]; reflexivity.
    + intros n Hn. destruct (screen_needs_iterator lib scr Hscr) as [it Hret].
      rewrite exec_outline, Hret.
      destruct n as [|[|[|[|n]]]]; try reflexivity. lia.
    + intros n Hn. destruct (screen_needs_iterator lib scr Hscr) as [it Hret].
      rewrite exec_outline, Hret, Hscr.
      do 4 (destruct n as [|n]; [lia|]).
      destruct n as [|[|[|[|[|[|n]]]]]]; reflexivity.
Qed.

Lemma C10_screen_reads_witness :
  (deref lib_no_screen (first_screen lib_no_screen) = None /\
   ctl (exec lib_no_screen 4) = Crashed) /\
  (has_first_screen lib_one_screen /\
   forall n, ctl (exec lib_one_screen n) <> Crashed).
Proof.
  split.
  - split; [reflexivity|].
    exact (proj1 (C10_screen_reads lib_no_screen) eq_refl).
  - split; [exact has_first_screen_one|].
    exact (proj1 (proj2 (proj2 (C10_screen_reads lib_one_screen) has_first_screen_one))).
Defined.
(** ** Further properties of [main] *)

(** X4: [main] calls nothing but the eight functions of
    [main_functions]: in every reachable state, whatever the library
    answered, each logged request is to one of them, at most nine
    requests have been made, and the trace holds at most thirteen
    events. *)
Theorem X4_only_eight_functions lib n :
  Forall (fun r => In (function_name r) main_functions)
         (requests (trace (exec lib n))) /\
  (length (requests (trace (exec lib n))) <= 9)%nat /\
  (length (trace (exec lib n)) <= 13)%nat.
Proof.
  split; [|split].
  - walk n; cbn;
      repeat first
        [ exact I
        | solve [constructor]
        | constructor; [cbn; repeat first [left; reflexivity | right]|] ].
  - walk n; vm_compute; lia.
  - walk n; vm_compute; lia.
Qed.

(** X5: every request that takes a connection is made on the handle
    [xcb_connect] returned, checked or not: no other handle is ever
    passed, also when the one returned is null. *)
Theorem X5_one_connection_handle lib n r c
    (Hin : In r (requests (trace (exec lib n))))
    (Hc : connection_of r = Some c) :
  c = lib_connect lib NULL NULL.
Proof.
  revert Hin. walk n; cbn; intros Hin;
    repeat (destruct Hin as [Hin|Hin];
            [subst r; cbn in Hc; try discriminate Hc;
             injection Hc as <-; reflexivity|]);
    contradiction.
Qed.

Lemma X5_one_connection_handle_witness :
  In (xcb_flush 4096) (requests (trace (exec lib_one_screen 10))) /\
  4096 = lib_connect lib_one_screen NULL NULL.
Proof.
  assert (Hin : In (xcb_flush 4096) (requests (trace (exec lib_one_screen 10))))
    by (cbn; tauto).
  split; [exact Hin|].
  exact (X5_one_connection_handle lib_one_screen 10 (xcb_flush 4096) 4096 Hin eq_refl).
Defined.

(** X6: every request that names a window names the id
    [xcb_generate_id] returned for the connection, reduced to 32 bits:
    the window that is created is the one that is named and the one
    that is mapped. *)
Theorem X6_one_window_id lib n r w
    (Hin : In r (requests (trace (exec lib n))))
    (Hw : window_of r = Some w) :
  w = lib_generate_id lib (lib_connect lib NULL NULL) mod 2 ^ 32 /\
  0 <= w < 2 ^ 32.
Proof.
  assert (Hrange : 0 <= lib_generate_id lib (lib_connect lib NULL NULL) mod 2 ^ 32 < 2 ^ 32)
    by (apply Z.mod_pos_bound; lia).
  revert Hin. walk n; intros Hin; cbn in Hin;
    repeat (destruct Hin as [Hin|Hin];
            [subst r; cbn in Hw; try discriminate Hw;
             injection Hw as <-; (split; [reflexivity|exact Hrange])|]);
    contradiction.
Qed.

Lemma X6_one_window_id_witness :
  In (xcb_map_window 4096 2097152) (requests (trace (exec lib_one_screen 9))) /\
  2097152 = lib_generate_id lib_one_screen (lib_connect lib_one_screen NULL NULL) mod 2 ^ 32.
Proof.
  assert (Hin : In (xcb_map_window 4096 2097152)
                   (requests (trace (exec lib_one_screen 9))))
    by (cbn; tauto).
  split; [exact Hin|].
  exact (proj1 (X6_one_window_id lib_one_screen 9 _ 2097152 Hin eq_refl)).
Defined.

